(** * skyhook/client.py: the direct client and the Web Remote Control client

    A shallow embedding of [src/skyhook/client.py].  Python values are an
    inductive type whose dictionaries are finite maps, so that equality of
    payloads is structural and blind to key order.  The network, the list of
    requests put on the wire and the text written by [pprint] are threaded
    through a state-and-exception monad. *)

From Stdlib Require Import Ascii.
From stdpp Require Import gmap strings list fin_maps pretty.

Set Warnings "-register-all".
Set Default Proof Using "Type".
Open Scope string_scope.
Open Scope list_scope.

(** ** Python values *)

(** The values that flow through the client: what [json] can carry (JSON
    numbers are kept to integers), plus callables, of which only the
    [__name__] attribute (present or not) is ever looked at. *)
Inductive pyval : Type :=
  | PNone
  | PBool (b : bool)
  | PInt (z : Z)
  | PStr (s : string)
  | PList (l : list pyval)
  | PDict (d : gmap string pyval)
  | PCallable (name : option string).

(** The exceptions that can arise in the embedded code. *)
Inductive pyexn : Type :=
  | AttributeError
  | TypeError
  | SyntaxError
  | NameError
  | ZeroDivisionError
  | InvalidURL
  | RequestException.

(** The outcome of a Python expression: a value, or a raised exception. *)
Inductive outcome (A : Type) : Type :=
  | Returns (a : A)
  | Raises (e : pyexn).
Arguments Returns {A} a.
Arguments Raises {A} e.

(** [json.dumps] accepts a value iff no callable occurs in it. *)
Fixpoint json_serializable (v : pyval) : bool :=
  match v with
  | PNone | PBool _ | PInt _ | PStr _ => true
  | PList l => forallb json_serializable l
  | PDict d => map_fold (fun _ x acc => json_serializable x && acc) true d
  | PCallable _ => false
  end.

(** The builtin [callable]. *)
Definition callable (v : pyval) : bool :=
  match v with
  | PCallable _ => true
  | _ => false
  end.

(** [x in names] for a list of strings: a value that is not a string equals
    none of them. *)
Definition py_in (x : pyval) (names : list string) : bool :=
  match x with
  | PStr s => bool_decide (s ∈ names)
  | _ => false
  end.

(** [dir(object)] as far as every CPython from 3.6 on has it: attribute names
    that each class carries. *)
Definition object_attribute_names : list string :=
  [ "__class__"; "__delattr__"; "__dir__"; "__doc__"; "__eq__"; "__format__";
    "__ge__"; "__getattribute__"; "__gt__"; "__hash__"; "__init__";
    "__init_subclass__"; "__le__"; "__lt__"; "__ne__"; "__new__";
    "__reduce__"; "__reduce_ex__"; "__repr__"; "__setattr__"; "__sizeof__";
    "__str__"; "__subclasshook__" ].

(** The names a [class] statement adds to the namespace of a plain class. *)
Definition class_namespace_names : list string :=
  [ "__dict__"; "__module__"; "__weakref__" ].

(** ** HTTP requests *)

Inductive http_method : Type := POST | PUT.

(** One call of [requests.post] or [requests.put]: the [headers] keyword is
    [None] when it is not passed. *)
Record request : Type := mkRequest {
  req_method : http_method;
  req_url : string;
  req_json : pyval;
  req_headers : option (gmap string string)
}.

(** HTTP field names are compared without regard to case. *)
Definition ascii_lower (c : ascii) : ascii :=
  let n := nat_of_ascii c in
  if (65 <=? n)%nat && (n <=? 90)%nat then ascii_of_nat (n + 32) else c.

Fixpoint string_lower (s : string) : string :=
  match s with
  | EmptyString => EmptyString
  | String c s' => String (ascii_lower c) (string_lower s')
  end.

(** The value of the header field [name] among [hs], field names compared
    case-insensitively. *)
Definition header_field (name : string) (hs : gmap string string) : option string :=
  match list_find (fun kv : string * string =>
                     string_lower (fst kv) = string_lower name)
                  (map_to_list hs) with
  | Some (_, kv) => Some (snd kv)
  | None => None
  end.

(** ** Client objects *)

(** The attributes [Client.__init__] sets; [host_program] is only set by the
    subclasses. *)
Record Client : Type := mkClient {
  host_address : string;
  port : Z;
  _Client__echo_execution : bool;
  _Client__echo_payload : bool;
  host_program : option string
}.

(** [UnrealClient] adds the two object paths and the request headers. *)
Record UnrealClient : Type := mkUnrealClient {
  super : Client;
  _UnrealClient__command_object_path : string;
  _UnrealClient__server_command_object_path : string;
  _UnrealClient__headers : gmap string string
}.

(** The local variables of [UnrealClient.__get_response] that [eval] can see
    when it is called there: the client object and the response as they are
    at the call. *)
Record frame : Type := mkFrame {
  f_self : UnrealClient;
  f_object_path : string;
  f_url : string;
  f_payload : pyval;
  f_response : pyval
}.

(** What running an expression in that frame does, over a world [W]: it
    returns or raises, and by then it may have changed the client object
    (through its setters and attributes), changed the response dictionary in
    place, printed, and acted on the world. *)
Record evaluation (W : Type) : Type := mkEvaluation {
  ev_outcome : outcome pyval;
  ev_self : UnrealClient;
  ev_response : gmap string pyval;
  ev_world : W;
  ev_printed : list pyval
}.
Arguments mkEvaluation {W} ev_outcome ev_self ev_response ev_world ev_printed.
Arguments ev_outcome {W} e.
Arguments ev_self {W} e.
Arguments ev_response {W} e.
Arguments ev_world {W} e.
Arguments ev_printed {W} e.

(** ** An evaluator for closed examples

    A stand-in for Python's [compile] and the run of the compiled text, to
    instantiate them with in closed examples.  It knows a fragment only:
    integers, quoted strings without escapes, [True], [False], [None] and
    lists of these, which it reads as Python does, and three expressions
    with effects.  Any other text it refuses, also where Python accepts it
    (dictionaries, tuples, floats, names). *)

Definition is_digit (c : ascii) : bool :=
  let n := nat_of_ascii c in (48 <=? n)%nat && (n <=? 57)%nat.

Definition digit_value (c : ascii) : Z := Z.of_nat (nat_of_ascii c) - 48.

Fixpoint skip_spaces (s : string) : string :=
  match s with
  | String " " s' => skip_spaces s'
  | _ => s
  end.

Fixpoint read_digits (acc : Z) (s : string) : Z * string :=
  match s with
  | String c s' =>
      if is_digit c then read_digits (10 * acc + digit_value c) s' else (acc, s)
  | EmptyString => (acc, s)
  end.

(** The two quote characters and the backslash, by code point. *)
Definition squote : ascii := ascii_of_nat 39.
Definition dquote : ascii := ascii_of_nat 34.
Definition backslash : ascii := ascii_of_nat 92.

Fixpoint read_quoted (q : ascii) (s : string) : option (string * string) :=
  match s with
  | EmptyString => None
  | String c s' =>
      if decide (c = q) then Some (EmptyString, s')
      else if decide (c = backslash) then None
      else '(body, rest) ← read_quoted q s'; Some (String c body, rest)
  end.

Definition strip_prefix (p s : string) : option string :=
  if String.prefix p s
  then Some (String.substring (String.length p)
               (String.length s - String.length p) s)
  else None.

(** Digits read as a decimal integer; as in Python, a zero may not lead
    unless every digit is a zero. *)
Definition read_integer (s : string) : option (Z * string) :=
  let '(n, r) := read_digits 0 s in
  match s with
  | String "0" (String d _) =>
      if is_digit d && negb (n =? 0)%Z then None else Some (n, r)
  | _ => Some (n, r)
  end.

(** A scalar: a quoted string, an integer with an optional minus sign, or one
    of the three named constants. *)
Definition read_scalar (s : string) : option (pyval * string) :=
  match s with
  | EmptyString => None
  | String c s1 =>
      if decide (c = squote ∨ c = dquote)
      then '(b, r) ← read_quoted c s1; Some (PStr b, r)
      else if is_digit c
      then '(n, r) ← read_integer s; Some (PInt n, r)
      else if decide (c = "-"%char)
      then match s1 with
           | String d _ =>
               if is_digit d
               then '(n, r) ← read_integer s1; Some (PInt (- n), r)
               else None
           | EmptyString => None
           end
      else match strip_prefix "True" s, strip_prefix "False" s,
                 strip_prefix "None" s with
           | Some r, _, _ => Some (PBool true, r)
           | _, Some r, _ => Some (PBool false, r)
           | _, _, Some r => Some (PNone, r)
           | _, _, _ => None
           end
  end.

Fixpoint read_value (fuel : nat) (s : string) : option (pyval * string) :=
  match fuel with
  | O => None
  | S fuel' =>
      match skip_spaces s with
      | String "[" s1 =>
          match skip_spaces s1 with
          | String "]" s2 => Some (PList [], s2)
          | _ =>
              (fix read_items (n : nat) (acc : list pyval) (t : string) :=
                 match n with
                 | O => None
                 | S n' =>
                     '(v, t1) ← read_value fuel' t;
                     match skip_spaces t1 with
                     | String "]" t2 => Some (PList (acc ++ [v]), t2)
                     | String "," t2 => read_items n' (acc ++ [v]) t2
                     | _ => None
                     end
                 end) fuel' [] s1
          end
      | s0 => read_scalar s0
      end
  end.

(** The literal a text displays, if it is one of the fragment. *)
Definition literal_reader (src : string) : option pyval :=
  match read_value (S (String.length src)) src with
  | Some (v, rest) =>
      match skip_spaces rest with
      | EmptyString => Some v
      | _ => None
      end
  | None => None
  end.

(** What the stand-in compiles a text to: a literal, or one of three
    expressions that change what is in scope before they return or raise. *)
Inductive example_code : Type :=
  | Literal (v : pyval)
  | ClearThenRaise
  | UpdateThenRaise
  | EchoOffThenOne.

Definition example_compile (src : string) : option example_code :=
  if decide (src = "response.clear() or undefined_name") then Some ClearThenRaise
  else if decide (src = "response.update(Success=False) or 1/0")
  then Some UpdateThenRaise
  else if decide (src = "self.set_echo_payload(False) or 1")
  then Some EchoOffThenOne
  else Literal <$> literal_reader src.

(** The dictionary a response is, for the frames in which [eval] runs. *)
Definition response_dict (v : pyval) : gmap string pyval :=
  match v with
  | PDict d => d
  | _ => ∅
  end.

Definition example_run {W : Type} (c : example_code) (fr : frame) (w : W)
  : evaluation W :=
  match c with
  | Literal v =>
      mkEvaluation (Returns v) (f_self fr) (response_dict (f_response fr)) w []
  | ClearThenRaise =>
      mkEvaluation (Raises NameError) (f_self fr) ∅ w []
  | UpdateThenRaise =>
      mkEvaluation (Raises ZeroDivisionError) (f_self fr)
        (<["Success" := PBool false]> (response_dict (f_response fr))) w []
  | EchoOffThenOne =>
      let self := f_self fr in
      let c := super self in
      mkEvaluation (Returns (PInt 1))
        (mkUnrealClient
           (mkClient (host_address c) (port c) (_Client__echo_execution c)
              false (host_program c))
           (_UnrealClient__command_object_path self)
           (_UnrealClient__server_command_object_path self)
           (_UnrealClient__headers self))
        (response_dict (f_response fr)) w []
  end.

(** ** A scripted network

    A network for closed examples: it answers the requests it is sent with the
    replies of a script, in order, and refuses the connection once the script
    is used up.  It takes every URL. *)
Definition scripted_transport (_ : request) (script : list (outcome pyval))
  : outcome pyval * list (outcome pyval) :=
  match script with
  | [] => (Raises RequestException, [])
  | reply :: script' => (reply, script')
  end.

(** A network that refuses every URL. *)
Definition refusing_transport (_ : request) (w : unit)
  : outcome pyval * unit :=
  (Raises InvalidURL, w).

(** ** Values for closed examples *)

(** Names for the body of a class of server commands, and the name that
    CPython 3.11 and 3.12 add to those every class carries. *)
Definition example_ServerCommands : list string :=
  [ "SKY_SHUTDOWN"; "SKY_LS"; "SKY_RELOAD_MODULES" ].

Definition example_interpreter_names : list string :=
  [ "__getstate__" ].

(** A Blender client and an Unreal client as their constructors leave them,
    for the ports 65500 and 30010. *)
Definition example_blender : Client :=
  mkClient "127.0.0.1" 65500 true true (Some "blender").

Definition example_unreal : UnrealClient :=
  mkUnrealClient
    (mkClient "127.0.0.1" 30010 true true (Some "unreal"))
    "/Engine/PythonTypes.Default__SkyHookCommands"
    "/Engine/PythonTypes.Default__SkyHookServerCommands"
    {[ "Content-type" := "application/json"; "Accept" := "text/plain" ]}.

Definition example_parameters : gmap string pyval :=
  {[ "size" := PInt 2 ]}.

(** Answers of a host. *)
Definition example_online : pyval :=
  PDict {[ "ReturnValue" := PBool true; "Success" := PBool true;
           "Time" := PStr "09:43:18" ]}.

Definition example_reply_list : pyval :=
  PDict {[ "ReturnValue" := PStr "[1, 2, 3]"; "Success" := PBool true;
           "Time" := PStr "09:43:18" ]}.

Definition example_reply_text : pyval :=
  PDict {[ "ReturnValue" := PStr "not a literal!"; "Success" := PBool true ]}.

(** Answers whose text changes what is in scope when it is evaluated. *)
Definition example_reply_clear : pyval :=
  PDict {[ "ReturnValue" := PStr "response.clear() or undefined_name";
           "Success" := PBool true ]}.



(** Parameters that hold a callable, and an answer with a false
    [Success]. *)
Definition example_bad_parameters : gmap string pyval :=
  {[ "callback" := PCallable (Some "on_done") ]}.

Definition example_offline : pyval :=
  PDict {[ "Success" := PBool false ]}.

(** ** The program *)

Section Skyhook.

(** The network: what [requests] does with a request changes the state of
    the world and yields the parsed JSON body of the answer, or raises: a URL
    that [requests] refuses ([InvalidURL], before anything is sent), a
    refused connection, a body that is not JSON, ... *)
Variable W : Type.
Variable transport : request -> W -> outcome pyval * W.

(** The builtin [eval] in its two steps.  Compiling a text is a function of
    the text, with no effect; it fails on a text that is no expression
    ([SyntaxError]).  Running the compiled text in a frame is an
    [evaluation].  An evaluation that replaces functions of the modules,
    reaches into other frames, ends the process or does not end is outside
    of this model. *)
Variable code : Type.
Variable py_compile : string -> option code.
Variable py_run : code -> frame -> W -> evaluation W.

(** The attribute names that every class carries in the interpreter that
    runs the client, beyond those of [object_attribute_names] and
    [class_namespace_names]: [__getstate__] from CPython 3.11 on,
    [__firstlineno__] and [__static_attributes__] from 3.13 on. *)
Variable interpreter_names : list string.

(** What [skyhook/constants.py] provides: the names assigned in the body of
    the class [ServerCommands] (a plain class), the ports and the names of
    the host programs. *)
Variable ServerCommands : list string.
Variables Ports_blender Ports_maya Ports_houdini Ports_unreal : Z.
Variables HostPrograms_blender HostPrograms_maya : string.
Variables HostPrograms_houdini HostPrograms_unreal : string.

(** *** State and exceptions *)

(** What a run can change: the world behind the network, the requests the
    client has handed to [requests] so far, and the values printed so far.
    What an evaluated text sends on its own shows in the world only. *)
Record machine : Type := mkMachine {
  world : W;
  sent : list request;
  stdout : list pyval
}.

Definition M (A : Type) : Type := machine -> outcome A * machine.

Definition ret {A : Type} (a : A) : M A := fun m => (Returns a, m).

Definition raise {A : Type} (e : pyexn) : M A := fun m => (Raises e, m).

Definition bind {A B : Type} (c : M A) (k : A -> M B) : M B :=
  fun m =>
    match c m with
    | (Returns a, m') => k a m'
    | (Raises e, m') => (Raises e, m')
    end.

(** [try: body / except: handler], with a bare [except] that catches every
    exception; what [body] did to the machine before raising stays done. *)
Definition try_except {A : Type} (body handler : M A) : M A :=
  fun m =>
    match body m with
    | (Returns a, m') => (Returns a, m')
    | (Raises _, m') => handler m'
    end.

Definition when (b : bool) (c : M unit) : M unit :=
  if b then c else ret tt.

Notation "x <- c1 ;; c2" := (bind c1 (fun x => c2))
  (at level 100, c1 at next level, right associativity).
Notation "c1 ;; c2" := (bind c1 (fun _ => c2))
  (at level 100, right associativity).

(** *** Builtins and libraries *)

Definition pprint (v : pyval) : M unit :=
  fun m => (Returns tt, mkMachine (world m) (sent m) (stdout m ++ [v])).

(** Whether [requests] refuses the URL of a request: it prepares the URL
    before anything else, and [transport] tells by [InvalidURL]. *)
Definition url_refused (r : request) (w : W) : bool :=
  match transport r w with
  | (Raises InvalidURL, _) => true
  | _ => false
  end.

(** [requests.<method>(url, json=..., headers=...).json()].  A body that
    cannot be serialised raises [TypeError] before anything is sent, unless
    the URL is refused, which comes first.  A body that can be serialised
    leaves all to [transport]. *)
Definition requests_call (meth : http_method) (url : string) (json : pyval)
    (headers : option (gmap string string)) : M pyval :=
  fun m =>
    let r := mkRequest meth url json headers in
    if json_serializable json then
      let '(o, w') := transport r (world m) in
      (o, mkMachine w' (sent m ++ [r]) (stdout m))
    else if url_refused r (world m) then (Raises InvalidURL, m)
    else (Raises TypeError, m).

Definition requests_post (url : string) (json : pyval) : M pyval :=
  requests_call POST url json None.

Definition requests_put (url : string) (json : pyval)
    (headers : gmap string string) : M pyval :=
  requests_call PUT url json (Some headers).

(** [v.__name__] *)
Definition py_name (v : pyval) : M pyval :=
  match v with
  | PCallable (Some n) => ret (PStr n)
  | _ => raise AttributeError
  end.

(** [obj.get(key)]: only dictionaries have the method; a missing key gives
    [None]. *)
Definition py_get (obj : pyval) (key : string) : M pyval :=
  match obj with
  | PDict d => ret (default PNone (d !! key))
  | _ => raise AttributeError
  end.

(** [eval(src)] in the frame [fr]: a [TypeError] unless [src] is a string, a
    [SyntaxError] if the string does not compile, both before anything is
    run; else what the run gives.  As a run may change the client and the
    response before it returns or raises, the outcome comes as a value,
    together with the client object and the response as they are left. *)
Definition eval (fr : frame) (src : pyval)
  : M (outcome pyval * UnrealClient * pyval) :=
  match src with
  | PStr s =>
      match py_compile s with
      | Some c =>
          fun m =>
            let ev := py_run c fr (world m) in
            (Returns (ev_outcome ev, ev_self ev, PDict (ev_response ev)),
             mkMachine (ev_world ev) (sent m) (stdout m ++ ev_printed ev))
      | None => ret (Raises SyntaxError, f_self fr, f_response fr)
      end
  | _ => ret (Raises TypeError, f_self fr, f_response fr)
  end.

(** [dir(cls)] for a plain class whose body assigns the names [body]:
    membership is all that the client asks of it, so the sorting is left
    out. *)
Definition py_dir (body : list string) : list string :=
  object_attribute_names ++ class_namespace_names ++ interpreter_names ++ body.

(** ["%s" % port] for an integer port. *)
Definition py_str (z : Z) : string := pretty z.

(** *** class Client *)

Definition Client__init__ : Client :=
  mkClient "127.0.0.1" 65500 true true None.

Definition Client_set_echo_execution (self : Client) (value : bool) : Client :=
  mkClient (host_address self) (port self) value
           (_Client__echo_payload self) (host_program self).

Definition Client_echo_execution (self : Client) : bool :=
  _Client__echo_execution self.

Definition Client_set_echo_payload (self : Client) (value : bool) : Client :=
  mkClient (host_address self) (port self) (_Client__echo_execution self)
           value (host_program self).

Definition Client_echo_payload (self : Client) : bool :=
  _Client__echo_payload self.

Definition Client__create_payload (self : Client) (command : pyval)
    (parameters : gmap string pyval) : pyval :=
  PDict {[ "FunctionName" := command; "Parameters" := PDict parameters ]}.

Definition Client_execute (self : Client) (command : pyval)
    (parameters : gmap string pyval) : M pyval :=
  command <- (if callable command then py_name command else ret command) ;;
  let url := "http://" +:+ host_address self +:+ ":" +:+ py_str (port self) in
  let payload := Client__create_payload self command parameters in
  response <- requests_post url payload ;;
  when (Client_echo_payload self) (pprint payload) ;;
  when (Client_echo_execution self) (pprint response) ;;
  ret PNone.

(** [self.execute] is looked up on the object: a subclass that overrides
    [execute] changes what [is_host_online] calls. *)
Class ClientObject (C : Type) : Type := {
  execute : C -> pyval -> gmap string pyval -> M pyval
}.

Definition Client_is_host_online {C : Type} {object : ClientObject C}
    (self : C) : M pyval :=
  response <- execute self (PStr "is_online") ∅ ;;
  py_get response "Success".

#[local] Instance Client_object : ClientObject Client :=
  {| execute := Client_execute |}.

(** *** The clients of the hosts that run a Skyhook server *)

Definition with_host (self : Client) (program : string) (p : Z) : Client :=
  mkClient (host_address self) p (_Client__echo_execution self)
           (_Client__echo_payload self) (Some program).

Definition BlenderClient__init__ : Client :=
  with_host Client__init__ HostPrograms_blender Ports_blender.

Definition MayaClient__init__ : Client :=
  with_host Client__init__ HostPrograms_maya Ports_maya.

Definition HoudiniClient__init__ : Client :=
  with_host Client__init__ HostPrograms_houdini Ports_houdini.

(** *** class UnrealClient *)

Definition UnrealClient__init__ : UnrealClient :=
  mkUnrealClient
    (with_host Client__init__ HostPrograms_unreal Ports_unreal)
    "/Engine/PythonTypes.Default__SkyHookCommands"
    "/Engine/PythonTypes.Default__SkyHookServerCommands"
    {[ "Content-type" := "application/json"; "Accept" := "text/plain" ]}.

Definition UnrealClient_set_command_object_path (self : UnrealClient)
    (path : string) : UnrealClient :=
  mkUnrealClient (super self) path
    (_UnrealClient__server_command_object_path self)
    (_UnrealClient__headers self).

Definition UnrealClient_command_object_path (self : UnrealClient) : string :=
  _UnrealClient__command_object_path self.

(** A method or attribute of [Client] used on an [UnrealClient]. *)
Definition on_super (f : Client -> Client) (self : UnrealClient) : UnrealClient :=
  mkUnrealClient (f (super self))
    (_UnrealClient__command_object_path self)
    (_UnrealClient__server_command_object_path self)
    (_UnrealClient__headers self).

Definition UnrealClient__create_payload (self : UnrealClient) (command : pyval)
    (parameters : gmap string pyval) (object_path : string)
    (echo_payload : bool) : pyval :=
  PDict {[ "ObjectPath" := PStr object_path;
           "FunctionName" := command;
           "Parameters" := PDict parameters;
           "GenerateTransaction" := PBool true ]}.

Definition UnrealClient_url (self : UnrealClient) : string :=
  "http://" +:+ host_address (super self) +:+ ":"
    +:+ py_str (port (super self)) +:+ "/remote/object/call".

(** [UnrealClient.__get_response]: what it returns, together with the
    client object as the evaluated text leaves it.  The [except: pass] of an
    exception out of [eval] goes on with the response as the text left
    it. *)
Definition UnrealClient__get_response_object (self : UnrealClient)
    (object_path : string) : M (pyval * UnrealClient) :=
  let url := UnrealClient_url self in
  let payload :=
    UnrealClient__create_payload self (PStr "get_reply") ∅ object_path true in
  response <- requests_put url payload (_UnrealClient__headers self) ;;
  try_except
    (text <- py_get response "ReturnValue" ;;
     evaluated <- eval (mkFrame self object_path url payload response) text ;;
     match evaluated with
     | (Returns return_value, self, _) =>
         ret (PDict {[ "ReturnValue" := return_value ]}, self)
     | (Raises _, self, response) => ret (response, self)
     end)
    (ret (response, self)).

(** What [UnrealClient.__get_response] returns. *)
Definition UnrealClient__get_response (self : UnrealClient)
    (object_path : string) : M pyval :=
  result <- UnrealClient__get_response_object self object_path ;;
  ret (fst result).

(** The [if]/[else] of [UnrealClient.execute]: the payload and the object
    path it is addressed to. *)
Definition UnrealClient_execute_payload (self : UnrealClient) (command : pyval)
    (parameters : gmap string pyval) : pyval * string :=
  if py_in command (py_dir ServerCommands) then
    (UnrealClient__create_payload self command parameters
       (_UnrealClient__server_command_object_path self) true,
     _UnrealClient__server_command_object_path self)
  else
    (UnrealClient__create_payload self command parameters
       (_UnrealClient__command_object_path self) true,
     _UnrealClient__command_object_path self).

(** [UnrealClient.execute]: by the time the echo flags are read, the text
    evaluated in [__get_response] may have changed the client object, so
    they are read from the object as it was left. *)
Definition UnrealClient_execute (self : UnrealClient) (command : pyval)
    (parameters : gmap string pyval) (function property : bool) : M pyval :=
  let url := UnrealClient_url self in
  let '(payload, used_object_path) :=
    UnrealClient_execute_payload self command parameters in
  requests_put url payload (_UnrealClient__headers self) ;;
  result <- UnrealClient__get_response_object self used_object_path ;;
  let '(response, self) := result in
  when (Client_echo_payload (super self)) (pprint payload) ;;
  when (Client_echo_execution (super self)) (pprint response) ;;
  ret response.

#[local] Instance UnrealClient_object : ClientObject UnrealClient :=
  {| execute := fun self command parameters =>
                  UnrealClient_execute self command parameters true false |}.

(** The clients a program can get to: made by [UnrealClient()], then changed
    through the setters or by assigning the public attributes
    [host_address], [port] and [host_program]. *)
Inductive UnrealClient_reachable : UnrealClient -> Prop :=
  | reach_init : UnrealClient_reachable UnrealClient__init__
  | reach_set_command_object_path self path :
      UnrealClient_reachable self ->
      UnrealClient_reachable (UnrealClient_set_command_object_path self path)
  | reach_set_echo_execution self value :
      UnrealClient_reachable self ->
      UnrealClient_reachable
        (on_super (fun c => Client_set_echo_execution c value) self)
  | reach_set_echo_payload self value :
      UnrealClient_reachable self ->
      UnrealClient_reachable
        (on_super (fun c => Client_set_echo_payload c value) self)
  | reach_assign_host_address self host :
      UnrealClient_reachable self ->
      UnrealClient_reachable
        (on_super (fun c => mkClient host (port c) (_Client__echo_execution c)
                              (_Client__echo_payload c) (host_program c)) self)
  | reach_assign_port self p :
      UnrealClient_reachable self ->
      UnrealClient_reachable
        (on_super (fun c => mkClient (host_address c) p
                              (_Client__echo_execution c)
                              (_Client__echo_payload c) (host_program c)) self)
  | reach_assign_host_program self program :
      UnrealClient_reachable self ->
      UnrealClient_reachable
        (on_super (fun c => mkClient (host_address c) (port c)
                              (_Client__echo_execution c)
                              (_Client__echo_payload c) (Some program)) self).

(** *** What the claims speak of *)

(** The request by which [UnrealClient.__get_response] fetches the reply. *)
Definition get_reply_request (self : UnrealClient) (object_path : string)
  : request :=
  mkRequest PUT (UnrealClient_url self)
    (PDict {[ "ObjectPath" := PStr object_path;
              "FunctionName" := PStr "get_reply";
              "Parameters" := PDict ∅;
              "GenerateTransaction" := PBool true ]})
    (Some (_UnrealClient__headers self)).

(** The wire format of a call of the indirection protocol, for the client
    [self]. *)
Definition indirection_call (self : UnrealClient) (r : request) : Prop :=
  req_method r = PUT
  ∧ req_url r = "http://" +:+ host_address (super self) +:+ ":"
                  +:+ py_str (port (super self)) +:+ "/remote/object/call"
  ∧ (∃ hs : gmap string string,
        req_headers r = Some hs
        ∧ dom hs = {[ "Content-type"; "Accept" ]}
        ∧ header_field "Content-Type" hs = Some "application/json"
        ∧ header_field "Accept" hs = Some "text/plain")
  ∧ (∃ (path : string) (command : pyval) (mapping : gmap string pyval),
        req_json r = PDict {[ "ObjectPath" := PStr path;
                              "FunctionName" := command;
                              "Parameters" := PDict mapping;
                              "GenerateTransaction" := PBool true ]}).

(** The frame in which [UnrealClient.__get_response] calls [eval]. *)
Definition get_response_frame (self : UnrealClient) (object_path : string)
    (response : pyval) : frame :=
  mkFrame self object_path (UnrealClient_url self)
    (req_json (get_reply_request self object_path)) response.

(** The machine after one more request went out and the world moved on. *)
Definition after_request (m : machine) (r : request) (w' : W) : machine :=
  mkMachine w' (sent m ++ [r]) (stdout m).

(** The evaluation that [UnrealClient.__get_response] starts on the answer
    [response] in the world [w], if it starts one: the answer is a dictionary
    with a text under [ReturnValue], and the text compiles. *)
Definition started_evaluation (self : UnrealClient) (object_path : string)
    (response : pyval) (w : W) : option (evaluation W) :=
  match response with
  | PDict d =>
      match d !! "ReturnValue" with
      | Some (PStr s) =>
          match py_compile s with
          | Some c =>
              Some (py_run c (get_response_frame self object_path response) w)
          | None => None
          end
      | _ => None
      end
  | _ => None
  end.

(** The machine after an evaluation: the world as it leaves it, and what it
    printed. *)
Definition after_evaluation (m : machine) (ev : evaluation W) : machine :=
  mkMachine (ev_world ev) (sent m) (stdout m ++ ev_printed ev).

(** The machine after [if flag: pprint.pprint(v)]. *)
Definition echoed (flag : bool) (v : pyval) (m : machine) : machine :=
  if flag then mkMachine (world m) (sent m) (stdout m ++ [v]) else m.

(** ** Properties *)

(** *** Serialisation *)

Lemma json_serializable_dict (d : gmap string pyval) :
  json_serializable (PDict d) = true
  ↔ map_Forall (fun _ v => json_serializable v = true) d.
Proof.
  clear. cbn [json_serializable].
  induction d as [|k v d Hk Hfold IH] using map_first_key_ind.
  - rewrite map_fold_empty. split; [intros _; apply map_Forall_empty|done].
  - rewrite map_fold_insert_first_key by done.
    rewrite andb_true_iff, IH, map_Forall_insert by done. tauto.
Qed.

Lemma payload_serializable (self : UnrealClient) (command : pyval)
    (parameters : gmap string pyval) (path : string) (echo : bool) :
  json_serializable (UnrealClient__create_payload self command parameters path echo)
  = json_serializable command && json_serializable (PDict parameters).
Proof.
  clear. apply Bool.eq_iff_eq_true. unfold UnrealClient__create_payload.
  rewrite andb_true_iff, json_serializable_dict.
  rewrite !map_Forall_insert by (by simplify_map_eq).
  rewrite map_Forall_singleton. cbn [json_serializable]. tauto.
Qed.

Lemma get_reply_serializable (self : UnrealClient) (path : string) :
  json_serializable (req_json (get_reply_request self path)) = true.
Proof.
  change (req_json (get_reply_request self path))
    with (UnrealClient__create_payload self (PStr "get_reply") ∅ path true).
  rewrite payload_serializable. reflexivity.
Qed.

Lemma get_response_object_run (self : UnrealClient) (path : string)
    (m : machine) :
  UnrealClient__get_response_object self path m =
  let r := get_reply_request self path in
  match transport r (world m) with
  | (Returns response, w') =>
      match started_evaluation self path response w' with
      | Some ev =>
          (Returns
             (match ev_outcome ev with
              | Returns v => PDict {[ "ReturnValue" := v ]}
              | Raises _ => PDict (ev_response ev)
              end,
              ev_self ev),
           after_evaluation (after_request m r w') ev)
      | None => (Returns (response, self), after_request m r w')
      end
  | (Raises e, w') => (Raises e, after_request m r w')
  end.
Proof.
  unfold UnrealClient__get_response_object, bind, requests_put, requests_call.
  pose proof (get_reply_serializable self path) as Hser.
  unfold get_reply_request in Hser. cbn [req_json] in Hser.
  unfold UnrealClient__create_payload. rewrite Hser. cbn zeta.
  unfold get_reply_request.
  destruct (transport _ (world m)) as [[response|e] w']; [|reflexivity].
  unfold started_evaluation, try_except, bind, py_get, eval, ret, raise,
    get_response_frame, after_request, after_evaluation.
  cbn [req_json].
  destruct response as [| | | |l|d|n]; try reflexivity.
  destruct (d !! "ReturnValue") as [[| | |s| | |]|]; cbn; try reflexivity.
  destruct (py_compile s) as [c|]; [|reflexivity].
  cbn [world sent stdout]. by destruct (ev_outcome _).
Qed.

Lemma get_response_run (self : UnrealClient) (path : string) (m : machine) :
  UnrealClient__get_response self path m =
  let r := get_reply_request self path in
  match transport r (world m) with
  | (Returns response, w') =>
      match started_evaluation self path response w' with
      | Some ev =>
          (Returns
             match ev_outcome ev with
             | Returns v => PDict {[ "ReturnValue" := v ]}
             | Raises _ => PDict (ev_response ev)
             end,
           after_evaluation (after_request m r w') ev)
      | None => (Returns response, after_request m r w')
      end
  | (Raises e, w') => (Raises e, after_request m r w')
  end.
Proof.
  unfold UnrealClient__get_response, bind. rewrite get_response_object_run.
  cbn zeta. destruct (transport _ (world m)) as [[response|e] w']; [|done].
  by destruct (started_evaluation _ _ _ _).
Qed.


(** *** One run of [UnrealClient.execute] *)

Lemma echoed_sent (flag : bool) (v : pyval) (m : machine) :
  sent (echoed flag v m) = sent m.
Proof. by destruct flag. Qed.

Lemma UnrealClient_execute_run (self : UnrealClient) (command : pyval)
    (parameters : gmap string pyval) (function property : bool)
    (m : machine) (payload : pyval) (path : string) :
  UnrealClient_execute_payload self command parameters = (payload, path) ->
  UnrealClient_execute self command parameters function property m =
  let r := mkRequest PUT (UnrealClient_url self) payload
             (Some (_UnrealClient__headers self)) in
  if json_serializable payload then
    match transport r (world m) with
    | (Returns _, w1) =>
        match UnrealClient__get_response_object self path
                (after_request m r w1) with
        | (Returns (response, self'), m2) =>
            (Returns response,
             echoed (Client_echo_execution (super self')) response
               (echoed (Client_echo_payload (super self')) payload m2))
        | (Raises e, m2) => (Raises e, m2)
        end
    | (Raises e, w1) => (Raises e, after_request m r w1)
    end
  else (Raises (if url_refused r (world m) then InvalidURL else TypeError), m).
Proof.
  intros Hsel. unfold UnrealClient_execute. rewrite Hsel.
  unfold bind at 1. unfold requests_put, requests_call. cbn zeta.
  destruct (json_serializable payload); [|by destruct (url_refused _ _)].
  destruct (transport _ (world m)) as [[r1|e] w1]; [|reflexivity].
  fold (after_request m
          (mkRequest PUT (UnrealClient_url self) payload
             (Some (_UnrealClient__headers self))) w1).
  unfold bind at 1.
  destruct (UnrealClient__get_response_object self path _)
    as [[[response self']|e] m2]; [|reflexivity].
  unfold bind, when, pprint, ret, echoed.
  by destruct (Client_echo_payload _), (Client_echo_execution _).
Qed.

(** *** The direct client *)

(** C4: for every command and every parameter mapping, the payload the base
    client builds is the mapping with [FunctionName] bound to the command and
    [Parameters] bound to the parameters, and nothing else; the order in
    which the two keys are written makes no difference. *)
Theorem Client__create_payload_exact (self : Client) (command : pyval)
    (parameters : gmap string pyval) :
  Client__create_payload self command parameters
  = PDict (<["FunctionName" := command]> {[ "Parameters" := PDict parameters ]})
  ∧ Client__create_payload self command parameters
    = PDict (<["Parameters" := PDict parameters]> {[ "FunctionName" := command ]})
  ∧ ∃ d : gmap string pyval,
      Client__create_payload self command parameters = PDict d
      ∧ d !! "FunctionName" = Some command
      ∧ d !! "Parameters" = Some (PDict parameters)
      ∧ dom d = {[ "FunctionName"; "Parameters" ]}.
Proof.
  unfold Client__create_payload. split; [reflexivity|]. split.
  - apply (f_equal PDict).
    apply (insert_insert_ne (M:=gmap string) ∅ "FunctionName" "Parameters").
    discriminate.
  - eexists. split; [reflexivity|].
    split; [by simplify_map_eq|]. split; [by simplify_map_eq|].
    rewrite dom_insert_L, dom_singleton_L. reflexivity.
Qed.

(** What one run of [Client.execute] does once the command is resolved to
    [name]: nothing if the payload cannot be serialised, else one POST, and
    then the echoes. *)
Lemma Client_execute_run (self : Client) (command name : pyval)
    (parameters : gmap string pyval) (m : machine) :
  (if callable command then py_name command else ret command) m
    = (Returns name, m) ->
  Client_execute self command parameters m =
  let payload := Client__create_payload self name parameters in
  let r := mkRequest POST
             ("http://" +:+ host_address self +:+ ":" +:+ py_str (port self))
             payload None in
  if json_serializable payload then
    match transport r (world m) with
    | (Returns response, w1) =>
        (Returns PNone,
         echoed (Client_echo_execution self) response
           (echoed (Client_echo_payload self) payload (after_request m r w1)))
    | (Raises e, w1) => (Raises e, after_request m r w1)
    end
  else (Raises (if url_refused r (world m) then InvalidURL else TypeError), m).
Proof.
  intros Hname. unfold Client_execute. unfold bind at 1. rewrite Hname.
  cbn zeta. unfold bind at 1. unfold requests_post, requests_call. cbn zeta.
  destruct (json_serializable _); [|by destruct (url_refused _ _)].
  destruct (transport _ (world m)) as [[response|e] w1]; [|reflexivity].
  unfold bind, when, pprint, ret, echoed, after_request.
  by destruct (Client_echo_payload _), (Client_echo_execution _).
Qed.

Lemma Client_execute_unnamed (self : Client) (command : pyval)
    (parameters : gmap string pyval) (m : machine) (e : pyexn) :
  (if callable command then py_name command else ret command) m
    = (Raises e, m) ->
  Client_execute self command parameters m = (Raises e, m).
Proof.
  intros Hname. unfold Client_execute. unfold bind at 1. by rewrite Hname.
Qed.

Lemma resolve_command (command : pyval) (m : machine) :
  (∃ name, (if callable command then py_name command else ret command) m
           = (Returns name, m))
  ∨ (∃ e, (if callable command then py_name command else ret command) m
          = (Raises e, m)).
Proof.
  destruct command as [| | | | | |[n|]]; cbn; unfold ret, raise; eauto.
Qed.

(** Whatever [Client.execute] returns is [None]. *)
Lemma Client_execute_value (self : Client) (command : pyval)
    (parameters : gmap string pyval) (m : machine) (v : pyval) :
  (Client_execute self command parameters m).1 = Returns v -> v = PNone.
Proof.
  destruct (resolve_command command m) as [[name Hn]|[e He]].
  - rewrite (Client_execute_run _ _ _ _ _ Hn). cbn zeta.
    destruct (json_serializable _); [|discriminate].
    destruct (transport _ _) as [[response|e] w1]; cbn; congruence.
  - rewrite (Client_execute_unnamed _ _ _ _ _ He). discriminate.
Qed.

(** C6: for every command and parameter mapping, [Client.execute] hands no
    response back: whenever it returns, it returns [None]; and when the
    command has a name, the payload can be serialised and the host answers,
    it does return, having sent one POST and echoed the payload and the
    response as the two flags say. *)
Theorem Client_execute_returns_nothing (self : Client) (command : pyval)
    (parameters : gmap string pyval) (m : machine) :
  (∀ v, (Client_execute self command parameters m).1 = Returns v → v = PNone)
  ∧ ∀ (name response : pyval) (w1 : W),
      (if callable command then py_name command else ret command) m
        = (Returns name, m) →
      let payload := PDict {[ "FunctionName" := name;
                              "Parameters" := PDict parameters ]} in
      let r := mkRequest POST
                 ("http://" +:+ host_address self +:+ ":" +:+ py_str (port self))
                 payload None in
      json_serializable payload = true →
      transport r (world m) = (Returns response, w1) →
      Client_execute self command parameters m
      = (Returns PNone,
         echoed (Client_echo_execution self) response
           (echoed (Client_echo_payload self) payload (after_request m r w1))).
Proof.
  split.
  - apply Client_execute_value.
  - intros name response w1 Hn payload r Hser Hsend.
    rewrite (Client_execute_run _ _ _ _ _ Hn). cbn zeta.
    change (Client__create_payload self name parameters) with payload.
    rewrite Hser. fold r. by rewrite Hsend.
Qed.

(** [Client.is_host_online] on a direct client never returns a value,
    whatever the host answers: [execute] hands back [None], which has no
    [get], so that the call ends in an exception. *)
Theorem Client_is_host_online_raises (self : Client) (m : machine) :
  ∃ e, (Client_is_host_online self m).1 = Raises e.
Proof.
  unfold Client_is_host_online, bind. cbn [execute Client_object].
  destruct (Client_execute self (PStr "is_online") ∅ m) as [[v|e] m1] eqn:Hrun.
  - pose proof (Client_execute_value self (PStr "is_online") ∅ m v) as Hnone.
    rewrite Hrun in Hnone. rewrite (Hnone eq_refl). cbn. eauto.
  - cbn. eauto.
Qed.

(** *** The indirection client: which object is addressed *)

Lemma py_in_dir (name : string) :
  py_in (PStr name) (py_dir ServerCommands)
  = bool_decide (name ∈ ServerCommands ∨ name ∈ object_attribute_names
                 ∨ name ∈ class_namespace_names ∨ name ∈ interpreter_names).
Proof.
  clear. unfold py_in, py_dir. apply bool_decide_ext.
  rewrite !elem_of_app. tauto.
Qed.

Lemma UnrealClient_execute_payload_path (self : UnrealClient) (command : pyval)
    (parameters : gmap string pyval) :
  UnrealClient_execute_payload self command parameters
  = let path :=
      if py_in command (py_dir ServerCommands)
      then _UnrealClient__server_command_object_path self
      else _UnrealClient__command_object_path self in
    (UnrealClient__create_payload self command parameters path true, path).
Proof. unfold UnrealClient_execute_payload. by destruct (py_in _ _). Qed.

(** C1, amended: for every command name, [UnrealClient.execute] selects the
    server-command object path when the name is an attribute name of the
    class [ServerCommands], that is a name its body assigns or one of the
    names every class carries in the running interpreter, and otherwise the
    current command object path; the payload it builds is addressed to the
    selected path. *)
Theorem UnrealClient_execute_selects (self : UnrealClient) (name : string)
    (parameters : gmap string pyval) :
  UnrealClient_execute_payload self (PStr name) parameters
  = let path :=
      if bool_decide (name ∈ ServerCommands ∨ name ∈ object_attribute_names
                      ∨ name ∈ class_namespace_names
                      ∨ name ∈ interpreter_names)
      then _UnrealClient__server_command_object_path self
      else _UnrealClient__command_object_path self in
    (PDict {[ "ObjectPath" := PStr path;
              "FunctionName" := PStr name;
              "Parameters" := PDict parameters;
              "GenerateTransaction" := PBool true ]},
     path).
Proof. by rewrite UnrealClient_execute_payload_path, py_in_dir. Qed.

(** The requests one run of [UnrealClient.execute] puts on the wire, for a
    payload that can be serialised: the invocation, and the fetch of the
    reply if the invocation was answered. *)
Lemma UnrealClient_execute_sent (self : UnrealClient) (command : pyval)
    (parameters : gmap string pyval) (function property : bool)
    (m : machine) (payload : pyval) (path : string) :
  UnrealClient_execute_payload self command parameters = (payload, path) ->
  json_serializable payload = true ->
  let r := mkRequest PUT (UnrealClient_url self) payload
             (Some (_UnrealClient__headers self)) in
  sent (UnrealClient_execute self command parameters function property m).2
  = sent m ++ r :: match (transport r (world m)).1 with
                   | Returns _ => [get_reply_request self path]
                   | Raises _ => []
                   end.
Proof.
  intros Hsel Hser r.
  rewrite (UnrealClient_execute_run _ _ _ _ _ _ _ _ Hsel). cbn zeta.
  rewrite Hser. fold r.
  destruct (transport r (world m)) as [[r1|e] w1]; [|done].
  rewrite get_response_object_run. cbn zeta.
  destruct (transport _ (world (after_request m r w1))) as [[response|e] w2];
    [destruct (started_evaluation _ _ _ _)|];
    cbn [fst snd]; rewrite ?echoed_sent;
    cbn [sent after_request after_evaluation];
    by rewrite <- app_assoc.
Qed.

Lemma UnrealClient_execute_unsent (self : UnrealClient) (command : pyval)
    (parameters : gmap string pyval) (function property : bool)
    (m : machine) (payload : pyval) (path : string) :
  UnrealClient_execute_payload self command parameters = (payload, path) ->
  json_serializable payload = false ->
  let r := mkRequest PUT (UnrealClient_url self) payload
             (Some (_UnrealClient__headers self)) in
  UnrealClient_execute self command parameters function property m
  = (Raises (if url_refused r (world m) then InvalidURL else TypeError), m).
Proof.
  intros Hsel Hser.
  rewrite (UnrealClient_execute_run _ _ _ _ _ _ _ _ Hsel). cbn zeta.
  by rewrite Hser.
Qed.

(** C2, amended: for every command name that is no attribute name of the
    class [ServerCommands] in the running interpreter, after
    [set_command_object_path(p)] a run of
    [execute] addresses the invocation to [p] and, once the invocation is
    answered, the fetch of the reply to the same [p], with an empty parameter
    mapping. *)
Theorem execute_after_set_command_object_path (self : UnrealClient)
    (p name : string) (parameters : gmap string pyval)
    (function property : bool) (m : machine) :
  name ∉ py_dir ServerCommands →
  json_serializable (PDict parameters) = true →
  let self' := UnrealClient_set_command_object_path self p in
  let invocation :=
    mkRequest PUT (UnrealClient_url self')
      (PDict {[ "ObjectPath" := PStr p;
                "FunctionName" := PStr name;
                "Parameters" := PDict parameters;
                "GenerateTransaction" := PBool true ]})
      (Some (_UnrealClient__headers self')) in
  let fetch :=
    mkRequest PUT (UnrealClient_url self')
      (PDict {[ "ObjectPath" := PStr p;
                "FunctionName" := PStr "get_reply";
                "Parameters" := PDict ∅;
                "GenerateTransaction" := PBool true ]})
      (Some (_UnrealClient__headers self')) in
  UnrealClient_command_object_path self' = p
  ∧ sent (UnrealClient_execute self' (PStr name) parameters
            function property m).2
    = sent m ++ invocation :: match (transport invocation (world m)).1 with
                              | Returns _ => [fetch]
                              | Raises _ => []
                              end.
Proof.
  intros Hname Hser self' invocation fetch. split; [reflexivity|].
  assert (UnrealClient_execute_payload self' (PStr name) parameters
          = (req_json invocation, p)) as Hsel.
  { unfold UnrealClient_execute_payload, py_in.
    by rewrite bool_decide_eq_false_2. }
  apply (UnrealClient_execute_sent _ _ _ function property m _ _ Hsel).
  cbn [req_json invocation].
  change (json_serializable
            (UnrealClient__create_payload self' (PStr name) parameters p true)
          = true).
  rewrite payload_serializable. by rewrite Hser.
Qed.


(** *** The indirection client: unwrapping the reply *)

(** C3, amended: for every answer to the fetch of the reply whose
    [ReturnValue] is a text: if the text evaluates to a value, the result
    holds that value under [ReturnValue]; if the text does not parse, nothing
    is run and the result is the answer itself, text and all; if the run of
    the text raises, the result is the answer as the run left it, which is
    the answer itself when the run did not change it; [__get_response] then
    returns in every case, and the only exception it ever raises is one the
    transport raised. *)
Theorem get_response_coerces (self : UnrealClient) (path : string)
    (m : machine) (response : pyval) (w1 : W) :
  transport (get_reply_request self path) (world m) = (Returns response, w1) →
  let fr := get_response_frame self path response in
  let m1 := after_request m (get_reply_request self path) w1 in
  (∀ d s c v,
      response = PDict d → d !! "ReturnValue" = Some (PStr s) →
      py_compile s = Some c →
      ev_outcome (py_run c fr w1) = Returns v →
      UnrealClient__get_response self path m
      = (Returns (PDict {[ "ReturnValue" := v ]}),
         after_evaluation m1 (py_run c fr w1)))
  ∧ (∀ d s,
        response = PDict d → d !! "ReturnValue" = Some (PStr s) →
        py_compile s = None →
        UnrealClient__get_response self path m = (Returns (PDict d), m1)
        ∧ UnrealClient__get_response_object self path m
          = (Returns (PDict d, self), m1)
        ∧ d !! "ReturnValue" = Some (PStr s))
  ∧ (∀ d s c e,
        response = PDict d → d !! "ReturnValue" = Some (PStr s) →
        py_compile s = Some c →
        ev_outcome (py_run c fr w1) = Raises e →
        UnrealClient__get_response self path m
        = (Returns (PDict (ev_response (py_run c fr w1))),
           after_evaluation m1 (py_run c fr w1))
        ∧ (ev_response (py_run c fr w1) = d →
           (UnrealClient__get_response self path m).1 = Returns response))
  ∧ (∃ v m2, UnrealClient__get_response self path m = (Returns v, m2))
  ∧ (∀ m' e,
        (UnrealClient__get_response self path m').1 = Raises e →
        (transport (get_reply_request self path) (world m')).1 = Raises e).
Proof.
  intros Hsend fr m1. split; [|split; [|split; [|split]]].
  - intros d s c v -> Hrv Hc Hev. rewrite get_response_run. cbn zeta.
    rewrite Hsend. unfold started_evaluation. rewrite Hrv, Hc. fold fr.
    by rewrite Hev.
  - intros d s -> Hrv Hc. split; [|split; [|done]].
    + rewrite get_response_run. cbn zeta. rewrite Hsend.
      unfold started_evaluation. by rewrite Hrv, Hc.
    + rewrite get_response_object_run. cbn zeta. rewrite Hsend.
      unfold started_evaluation. by rewrite Hrv, Hc.
  - intros d s c e -> Hrv Hc Hev. rewrite get_response_run. cbn zeta.
    rewrite Hsend. unfold started_evaluation. rewrite Hrv, Hc. fold fr.
    rewrite Hev. split; [done|]. by intros ->.
  - rewrite get_response_run. cbn zeta. rewrite Hsend.
    destruct (started_evaluation _ _ _ _); eauto.
  - intros m' e. rewrite get_response_run. cbn zeta.
    destruct (transport _ (world m')) as [[r|e'] w']; [|done].
    by destruct (started_evaluation _ _ _ _).
Qed.

(** C9: when the coercion succeeds the result is a mapping whose only key is
    [ReturnValue], bound to the coerced value, so that every other field of
    the answer is gone; when no text is run (no dictionary, no text under
    [ReturnValue], a text that does not parse) the result is the whole
    answer; when the run of the text raises, the result is the answer as the
    run left it; and an answer that has some other field comes back whole
    only if the coercion failed. *)
Theorem get_response_keeps_only_return_value (self : UnrealClient)
    (path : string) (m : machine) (response : pyval) (w1 : W) :
  transport (get_reply_request self path) (world m) = (Returns response, w1) →
  let fr := get_response_frame self path response in
  let result := (UnrealClient__get_response self path m).1 in
  (∀ d s c v,
      response = PDict d → d !! "ReturnValue" = Some (PStr s) →
      py_compile s = Some c →
      ev_outcome (py_run c fr w1) = Returns v →
      ∃ d' : gmap string pyval,
        result = Returns (PDict d')
        ∧ d' !! "ReturnValue" = Some v
        ∧ dom d' = {[ "ReturnValue" ]}
        ∧ ∀ k, k ≠ "ReturnValue" → d' !! k = None)
  ∧ ((∀ d, response ≠ PDict d) → result = Returns response)
  ∧ (∀ d,
        response = PDict d →
        (∀ s, d !! "ReturnValue" = Some (PStr s) → py_compile s = None) →
        result = Returns response)
  ∧ (∀ d s c e,
        response = PDict d → d !! "ReturnValue" = Some (PStr s) →
        py_compile s = Some c →
        ev_outcome (py_run c fr w1) = Raises e →
        result = Returns (PDict (ev_response (py_run c fr w1))))
  ∧ (∀ d k x s,
        response = PDict d → k ≠ "ReturnValue" → d !! k = Some x →
        d !! "ReturnValue" = Some (PStr s) →
        result = Returns response →
        py_compile s = None
        ∨ ∃ c e, py_compile s = Some c
                 ∧ ev_outcome (py_run c fr w1) = Raises e).
Proof.
  intros Hsend fr result. subst result.
  rewrite get_response_run. cbn zeta. rewrite Hsend.
  unfold started_evaluation. fold fr. split; [|split; [|split; [|split]]].
  - intros d s c v -> Hrv Hc Hev. rewrite Hrv, Hc. cbn [fst]. rewrite Hev.
    eexists. split; [done|].
    split; [by simplify_map_eq|]. split; [by rewrite dom_singleton_L|].
    intros k Hk. by rewrite lookup_singleton_ne.
  - intros Hnd. destruct response; try done. by destruct (Hnd d).
  - intros d -> Hfail.
    destruct (d !! "ReturnValue") as [[| | |s| | |]|]; try done.
    by rewrite (Hfail s eq_refl).
  - intros d s c e -> Hrv Hc Hev. rewrite Hrv, Hc. cbn [fst]. by rewrite Hev.
  - intros d k x s -> Hk Hx Hrv. rewrite Hrv.
    destruct (py_compile s) as [c|]; [|by left]. cbn [fst].
    destruct (ev_outcome (py_run c fr w1)) as [v|e] eqn:Hev; [|by eauto].
    intros [= Hd]. rewrite <- Hd in Hx.
    by rewrite lookup_singleton_ne in Hx.
Qed.

(** *** Callables as commands *)

(** C7, amended: for every callable with a name, "spawn_cube" or another,
    a run of the direct client's [execute] on the callable is the run on the
    name, payload included; the indirection client's [execute] extracts no
    name and puts the command into the payload as it is given. *)
Theorem execute_callable_by_name (name : string)
    (parameters : gmap string pyval) :
  (∀ (self : Client) (m : machine),
      Client_execute self (PCallable (Some name)) parameters m
      = Client_execute self (PStr name) parameters m)
  ∧ (∀ (self : UnrealClient) (command : pyval),
        ∃ (d : gmap string pyval) (path : string),
          UnrealClient_execute_payload self command parameters = (PDict d, path)
          ∧ d !! "FunctionName" = Some command).
Proof.
  split.
  - intros self m.
    rewrite (Client_execute_run self (PCallable (Some name)) (PStr name)) by done.
    by rewrite (Client_execute_run self (PStr name) (PStr name)).
  - intros self command. unfold UnrealClient_execute_payload.
    destruct (py_in _ _); do 2 eexists; (split; [reflexivity|]);
      by simplify_map_eq.
Qed.

(** *** The wire format of the indirection protocol *)

Lemma UnrealClient_reachable_headers (self : UnrealClient) :
  UnrealClient_reachable self ->
  _UnrealClient__headers self
  = {[ "Content-type" := "application/json"; "Accept" := "text/plain" ]}.
Proof. induction 1; done. Qed.

Lemma UnrealClient_reachable_server_path (self : UnrealClient) :
  UnrealClient_reachable self ->
  _UnrealClient__server_command_object_path self
  = "/Engine/PythonTypes.Default__SkyHookServerCommands".
Proof. induction 1; done. Qed.

Lemma payload_indirection_call (self : UnrealClient) (command : pyval)
    (parameters : gmap string pyval) (path : string) :
  UnrealClient_reachable self ->
  indirection_call self
    (mkRequest PUT (UnrealClient_url self)
       (UnrealClient__create_payload self command parameters path true)
       (Some (_UnrealClient__headers self))).
Proof.
  intros Hreach. split; [done|]. split; [done|]. split.
  - eexists. split; [done|].
    rewrite (UnrealClient_reachable_headers _ Hreach).
    split; [|split]; by vm_compute.
  - by exists path, command, parameters.
Qed.

(** C8: every request a run of [UnrealClient.execute] puts on the wire is a
    PUT to [http://{host}:{port}/remote/object/call] that carries the
    headers [Content-Type: application/json] and [Accept: text/plain] (field
    names read without regard to case) and a body made of exactly
    [ObjectPath], [FunctionName], [Parameters] and [GenerateTransaction], the
    last one [True]; and requests are sent unless the command or the
    parameters cannot be serialised. *)
Theorem execute_wire_format (self : UnrealClient) (command : pyval)
    (parameters : gmap string pyval) (function property : bool) (m : machine) :
  UnrealClient_reachable self →
  ∃ new : list request,
    sent (UnrealClient_execute self command parameters function property m).2
    = sent m ++ new
    ∧ Forall (indirection_call self) new
    ∧ (new = [] ↔ json_serializable command
                   && json_serializable (PDict parameters) = false).
Proof.
  intros Hreach.
  destruct (UnrealClient_execute_payload self command parameters)
    as [payload path] eqn:Hsel.
  assert (∃ p, payload
               = UnrealClient__create_payload self command parameters p true
               ∧ (path = p)) as (p & -> & ->).
  { unfold UnrealClient_execute_payload in Hsel.
    destruct (py_in _ _); injection Hsel as <- <-; eauto. }
  destruct (json_serializable
              (UnrealClient__create_payload self command parameters p true))
    eqn:Hser.
  - eexists. split; [by apply UnrealClient_execute_sent|].
    rewrite <- payload_serializable with (self := self) (path := p) (echo := true).
    rewrite Hser. split; [|split; intros; discriminate].
    constructor; [by apply payload_indirection_call|].
    destruct (transport _ _).1; [|constructor].
    constructor; [|constructor]. by apply payload_indirection_call.
  - exists []. rewrite (UnrealClient_execute_unsent _ _ _ _ _ _ _ _ Hsel Hser).
    rewrite <- payload_serializable with (self := self) (path := p) (echo := true).
    rewrite Hser. cbn [snd]. rewrite app_nil_r.
    split; [reflexivity|]. split; [constructor|]. split; reflexivity.
Qed.

(** *** Further properties of the direct client *)

Lemma echoed_world (flag : bool) (v : pyval) (m : machine) :
  world (echoed flag v m) = world m.
Proof. by destruct flag. Qed.

Lemma echoed_stdout (flag : bool) (v : pyval) (m : machine) :
  stdout (echoed flag v m) = stdout m ++ (if flag then [v] else []).
Proof. destruct flag; [done|]. cbn. by rewrite app_nil_r. Qed.

Lemma Client_payload_serializable (self : Client) (name : pyval)
    (parameters : gmap string pyval) :
  json_serializable (Client__create_payload self name parameters)
  = json_serializable name && json_serializable (PDict parameters).
Proof.
  clear. apply Bool.eq_iff_eq_true. unfold Client__create_payload.
  rewrite andb_true_iff, json_serializable_dict.
  rewrite map_Forall_insert by (by simplify_map_eq).
  rewrite map_Forall_singleton. tauto.
Qed.

(** The run of [Client.execute] does not look at the echo flags before the
    request is answered. *)
Lemma Client_execute_run_flags (self : Client) (a b : bool)
    (command name : pyval) (parameters : gmap string pyval) (m : machine) :
  (if callable command then py_name command else ret command) m
    = (Returns name, m) ->
  Client_execute (Client_set_echo_execution (Client_set_echo_payload self a) b)
    command parameters m =
  let payload := Client__create_payload self name parameters in
  let r := mkRequest POST
             ("http://" +:+ host_address self +:+ ":" +:+ py_str (port self))
             payload None in
  if json_serializable payload then
    match transport r (world m) with
    | (Returns response, w1) =>
        (Returns PNone,
         echoed b response (echoed a payload (after_request m r w1)))
    | (Raises e, w1) => (Raises e, after_request m r w1)
    end
  else (Raises (if url_refused r (world m) then InvalidURL else TypeError), m).
Proof. intros Hname. by rewrite (Client_execute_run _ _ _ _ _ Hname). Qed.

(** X1: the two echo setters decide what a run of [Client.execute] that the
    host answers prints: the payload if the payload flag is set, then the
    answer if the execution flag is set; the getters give the flags back, and
    the order in which the two setters are called makes no difference. *)
Theorem Client_execute_echo (self : Client) (a b : bool)
    (command name response : pyval) (parameters : gmap string pyval)
    (m : machine) (w1 : W) :
  let self' := Client_set_echo_execution (Client_set_echo_payload self a) b in
  let payload := PDict {[ "FunctionName" := name;
                          "Parameters" := PDict parameters ]} in
  let r := mkRequest POST
             ("http://" +:+ host_address self +:+ ":" +:+ py_str (port self))
             payload None in
  (if callable command then py_name command else ret command) m
    = (Returns name, m) →
  json_serializable payload = true →
  transport r (world m) = (Returns response, w1) →
  Client_echo_payload self' = a
  ∧ Client_echo_execution self' = b
  ∧ self' = Client_set_echo_payload (Client_set_echo_execution self b) a
  ∧ stdout (Client_execute self' command parameters m).2
    = stdout m ++ (if a then [payload] else [])
               ++ (if b then [response] else []).
Proof.
  intros self' payload r Hname Hser Hsend.
  split; [done|]. split; [done|]. split; [done|].
  unfold self'. rewrite (Client_execute_run_flags _ _ _ _ _ _ _ Hname).
  cbn zeta. change (Client__create_payload self name parameters) with payload.
  rewrite Hser. fold r. rewrite Hsend. cbn [snd].
  rewrite !echoed_stdout. cbn [stdout after_request]. by rewrite <- app_assoc.
Qed.


(** X3: [Client.execute] raises before anything is sent or printed when the
    command is a callable without a name ([AttributeError]) and when the
    parameters hold a value that cannot be serialised: then the exception is
    [InvalidURL] if [requests] refuses the URL, which it looks at first, and
    [TypeError] if not. *)
Theorem Client_execute_rejects (self : Client) (command : pyval)
    (parameters : gmap string pyval) (m : machine) :
  command = PCallable None ∨ json_serializable (PDict parameters) = false →
  ∃ e, Client_execute self command parameters m = (Raises e, m)
       ∧ (command = PCallable None → e = AttributeError)
       ∧ (∀ name,
            (if callable command then py_name command else ret command) m
              = (Returns name, m) →
            let r := mkRequest POST
                       ("http://" +:+ host_address self +:+ ":"
                          +:+ py_str (port self))
                       (PDict {[ "FunctionName" := name;
                                 "Parameters" := PDict parameters ]})
                       None in
            e = if url_refused r (world m) then InvalidURL else TypeError).
Proof.
  intros Hbad. destruct (resolve_command command m) as [[name Hn]|[e He]].
  - rewrite (Client_execute_run _ _ _ _ _ Hn). cbn zeta.
    rewrite Client_payload_serializable.
    destruct Hbad as [->|Hser]; [discriminate|].
    rewrite Hser, andb_false_r. eexists. split; [done|].
    split; [by intros ->|].
    intros name' Hn'. rewrite Hn in Hn'. by injection Hn' as <-.
  - rewrite (Client_execute_unnamed _ _ _ _ _ He). exists e. split; [done|].
    split.
    + destruct command as [| | | | | |[n|]]; try discriminate.
      by injection He as <-.
    + intros name Hn. rewrite He in Hn. discriminate.
Qed.

(** X4: a run of [Client.execute] sends at most one request, and what it
    sends is a POST to [http://{host}:{port}] without a [headers] argument,
    whose body binds [FunctionName] to the command (to its name, for a
    callable) and [Parameters] to the parameters; a command that is neither
    a string nor a callable goes into the body as it is. *)
Theorem Client_execute_wire_format (self : Client) (command : pyval)
    (parameters : gmap string pyval) (m : machine) :
  ∃ new : list request,
    sent (Client_execute self command parameters m).2 = sent m ++ new
    ∧ (length new ≤ 1)%nat
    ∧ Forall
        (fun r =>
           req_method r = POST
           ∧ req_url r = "http://" +:+ host_address self +:+ ":"
                           +:+ py_str (port self)
           ∧ req_headers r = None
           ∧ ∃ name,
               req_json r = PDict {[ "FunctionName" := name;
                                     "Parameters" := PDict parameters ]}
               ∧ (callable command = false → name = command)
               ∧ (∀ n, command = PCallable (Some n) → name = PStr n))
        new.
Proof.
  destruct (resolve_command command m) as [[name Hn]|[e He]].
  - rewrite (Client_execute_run _ _ _ _ _ Hn). cbn zeta.
    destruct (json_serializable _).
    + eexists [_]. split; [|split; [done|]].
      * by destruct (transport _ _) as [[response|e] w1]; cbn;
          rewrite ?echoed_sent.
      * constructor; [|constructor]. do 3 (split; [done|]).
        exists name. split; [done|].
        destruct command as [| | | | | |[n|]]; cbn in Hn;
          unfold ret, raise in Hn; try discriminate;
          injection Hn as <-; split; (done || by intros ? [= <-]).
    + exists []. cbn. rewrite app_nil_r. split; [done|]. split; [lia|constructor].
  - rewrite (Client_execute_unnamed _ _ _ _ _ He). exists []. cbn.
    rewrite app_nil_r. split; [done|]. split; [lia|constructor].
Qed.

(** X5: the echo flags of a direct client change nothing but what is
    printed: the outcome of [execute], the requests sent and the state of
    the world are the same for every setting of the flags. *)
Theorem Client_execute_echo_only_prints (self : Client) (a b : bool)
    (command : pyval) (parameters : gmap string pyval) (m : machine) :
  let self' := Client_set_echo_execution (Client_set_echo_payload self a) b in
  (Client_execute self' command parameters m).1
  = (Client_execute self command parameters m).1
  ∧ sent (Client_execute self' command parameters m).2
    = sent (Client_execute self command parameters m).2
  ∧ world (Client_execute self' command parameters m).2
    = world (Client_execute self command parameters m).2.
Proof.
  intros self'. unfold self'.
  destruct (resolve_command command m) as [[name Hn]|[e He]].
  - rewrite (Client_execute_run_flags _ _ _ _ _ _ _ Hn).
    rewrite (Client_execute_run _ _ _ _ _ Hn). cbn zeta.
    destruct (json_serializable _); [|done].
    destruct (transport _ _) as [[response|e] w1]; [|done].
    cbn [fst snd]. by rewrite !echoed_sent, !echoed_world.
  - by rewrite !(Client_execute_unnamed _ _ _ _ _ He).
Qed.

(** X6: on a direct client whose host answers, [is_host_online] sends the
    POST of the command [is_online] with no parameters, echoes as the flags
    say, and then raises [AttributeError]: the answer, whatever its
    [Success], never reaches the caller. *)
Theorem Client_is_host_online_attribute_error (self : Client) (m : machine)
    (response : pyval) (w1 : W) :
  let payload := PDict {[ "FunctionName" := PStr "is_online";
                          "Parameters" := PDict ∅ ]} in
  let r := mkRequest POST
             ("http://" +:+ host_address self +:+ ":" +:+ py_str (port self))
             payload None in
  transport r (world m) = (Returns response, w1) →
  Client_is_host_online self m
  = (Raises AttributeError,
     echoed (Client_echo_execution self) response
       (echoed (Client_echo_payload self) payload (after_request m r w1))).
Proof.
  intros payload r Hsend. unfold Client_is_host_online, bind.
  cbn [execute Client_object].
  rewrite (Client_execute_run self (PStr "is_online") (PStr "is_online"))
    by done.
  cbn zeta. rewrite Client_payload_serializable.
  change (Client__create_payload self (PStr "is_online") ∅) with payload.
  cbn [json_serializable andb]. rewrite map_fold_empty. fold r.
  by rewrite Hsend.
Qed.

(** X7: a client as [Client()], [BlenderClient()], [MayaClient()] or
    [HoudiniClient()] leaves it posts to [127.0.0.1] on the port of its
    host program (65500 for the base client) and has both echo flags set:
    a run of [execute] that the host answers prints the payload and then the
    answer, and returns [None]. *)
Theorem host_clients_execute (name : string) (parameters : gmap string pyval)
    (m : machine) (response : pyval) (w1 : W) :
  let payload := PDict {[ "FunctionName" := PStr name;
                          "Parameters" := PDict parameters ]} in
  json_serializable (PDict parameters) = true →
  (∀ r, req_method r = POST → transport r (world m) = (Returns response, w1)) →
  Forall
    (fun '(client, p) =>
       Client_execute client (PStr name) parameters m
       = (Returns PNone,
          mkMachine w1
            (sent m ++ [mkRequest POST ("http://127.0.0.1:" +:+ py_str p)
                          payload None])
            (stdout m ++ [payload; response])))
    [ (Client__init__, 65500%Z);
      (BlenderClient__init__, Ports_blender);
      (MayaClient__init__, Ports_maya);
      (HoudiniClient__init__, Ports_houdini) ].
Proof.
  intros payload Hser Hsend.
  assert (∀ program p,
            Client_execute (mkClient "127.0.0.1" p true true program)
              (PStr name) parameters m
            = (Returns PNone,
               mkMachine w1
                 (sent m ++ [mkRequest POST ("http://127.0.0.1:" +:+ py_str p)
                               payload None])
                 (stdout m ++ [payload; response]))) as Hrun.
  { intros program p.
    rewrite (Client_execute_run _ (PStr name) (PStr name)) by done.
    cbn zeta. rewrite Client_payload_serializable, Hser.
    cbn [json_serializable andb host_address port].
    rewrite Hsend by done. unfold echoed, after_request.
    cbn [Client_echo_execution Client_echo_payload _Client__echo_execution
         _Client__echo_payload world sent stdout].
    by rewrite <- app_assoc. }
  repeat constructor; apply Hrun.
Qed.

(** *** Further properties of the indirection client *)



(** X10: when the invocation fails in the transport, [UnrealClient.execute]
    raises the exception of the transport; the reply is not fetched, and
    nothing is printed. *)
Theorem UnrealClient_execute_invocation_failure (self : UnrealClient)
    (command : pyval) (parameters : gmap string pyval)
    (function property : bool) (m : machine) (e : pyexn) (w1 : W) :
  let payload := (UnrealClient_execute_payload self command parameters).1 in
  let r := mkRequest PUT (UnrealClient_url self) payload
             (Some (_UnrealClient__headers self)) in
  json_serializable payload = true →
  transport r (world m) = (Raises e, w1) →
  UnrealClient_execute self command parameters function property m
  = (Raises e, mkMachine w1 (sent m ++ [r]) (stdout m)).
Proof.
  destruct (UnrealClient_execute_payload self command parameters)
    as [payload path] eqn:Hsel.
  cbn [fst]. intros Hser Hsend.
  rewrite (UnrealClient_execute_run _ _ _ _ _ _ _ _ Hsel). cbn zeta.
  by rewrite Hser, Hsend.
Qed.

(** X11: a command that is a callable, or parameters that hold one, make
    [UnrealClient.execute] raise before anything is sent or printed:
    [InvalidURL] if [requests] refuses the URL, which it looks at first, and
    [TypeError] if not. *)
Theorem UnrealClient_execute_rejects (self : UnrealClient) (command : pyval)
    (parameters : gmap string pyval) (function property : bool)
    (m : machine) :
  json_serializable command && json_serializable (PDict parameters) = false →
  let r := mkRequest PUT (UnrealClient_url self)
             (UnrealClient_execute_payload self command parameters).1
             (Some (_UnrealClient__headers self)) in
  UnrealClient_execute self command parameters function property m
  = (Raises (if url_refused r (world m) then InvalidURL else TypeError), m).
Proof.
  intros Hser.
  destruct (UnrealClient_execute_payload self command parameters)
    as [payload path] eqn:Hsel.
  cbn [fst]. apply (UnrealClient_execute_unsent _ _ _ _ _ _ _ _ Hsel).
  rewrite UnrealClient_execute_payload_path in Hsel. cbn zeta in Hsel.
  injection Hsel as <- _. by rewrite payload_serializable.
Qed.


(** X13: [set_command_object_path] does not reach the server commands: for
    a name the membership test holds for, the payload is still addressed to
    the server-command object path, and the requests of a run are those of
    the client before the call. *)
Theorem set_command_object_path_keeps_server_commands (self : UnrealClient)
    (p name : string) (parameters : gmap string pyval)
    (function property : bool) (m : machine) :
  name ∈ py_dir ServerCommands →
  let self' := UnrealClient_set_command_object_path self p in
  (UnrealClient_execute_payload self' (PStr name) parameters).2
  = _UnrealClient__server_command_object_path self
  ∧ UnrealClient_execute_payload self' (PStr name) parameters
    = UnrealClient_execute_payload self (PStr name) parameters
  ∧ sent (UnrealClient_execute self' (PStr name) parameters
            function property m).2
    = sent (UnrealClient_execute self (PStr name) parameters
              function property m).2.
Proof.
  intros Hname self'.
  assert (∀ u, _UnrealClient__server_command_object_path u
               = _UnrealClient__server_command_object_path self →
               UnrealClient_execute_payload u (PStr name) parameters
               = (UnrealClient__create_payload self (PStr name) parameters
                    (_UnrealClient__server_command_object_path self) true,
                  _UnrealClient__server_command_object_path self)) as Hsel.
  { intros u Hu. rewrite UnrealClient_execute_payload_path. cbn zeta.
    unfold py_in. rewrite bool_decide_eq_true_2 by done. by rewrite Hu. }
  rewrite (Hsel self') by done. rewrite (Hsel self) by done.
  split; [done|]. split; [done|].
  destruct (json_serializable
              (UnrealClient__create_payload self (PStr name) parameters
                 (_UnrealClient__server_command_object_path self) true))
    eqn:Hser.
  - rewrite (UnrealClient_execute_sent self' _ _ _ _ _ _ _
               (Hsel self' eq_refl) Hser).
    by rewrite (UnrealClient_execute_sent self _ _ _ _ _ _ _
                  (Hsel self eq_refl) Hser).
  - rewrite (UnrealClient_execute_unsent self' _ _ _ _ _ _ _
               (Hsel self' eq_refl) Hser).
    by rewrite (UnrealClient_execute_unsent self _ _ _ _ _ _ _
                  (Hsel self eq_refl) Hser).
Qed.

(** X14: no setter and no assignment to one of the public attributes
    [host_address], [port] and [host_program] changes the server-command
    object path or the headers of an [UnrealClient]: they stay as
    [UnrealClient()] set them. *)
Theorem UnrealClient_reachable_invariant (self : UnrealClient) :
  UnrealClient_reachable self →
  _UnrealClient__server_command_object_path self
  = "/Engine/PythonTypes.Default__SkyHookServerCommands"
  ∧ _UnrealClient__headers self
    = {[ "Content-type" := "application/json"; "Accept" := "text/plain" ]}.
Proof.
  induction 1 as [|self path _ IH|self value _ IH|self value _ IH
                  |self host _ IH|self p _ IH|self program _ IH];
    [done|exact IH..].
Qed.


End Skyhook.

Arguments mkMachine {W} world sent stdout.
Arguments world {W} m.
Arguments sent {W} m.
Arguments stdout {W} m.
Arguments Client_execute {W} transport self command parameters m.
Arguments Client_is_host_online {W C object} self m.
Arguments UnrealClient_execute {W} transport {code} py_compile py_run
  interpreter_names ServerCommands self command parameters function property m.
Arguments UnrealClient__get_response {W} transport {code} py_compile py_run
  self object_path m.
Arguments UnrealClient__get_response_object {W} transport {code} py_compile
  py_run self object_path m.

(** ** Closed examples *)

Lemma example_unreal_init : example_unreal = UnrealClient__init__ 30010 "unreal".
Proof. reflexivity. Qed.

Lemma example_blender_init : example_blender = BlenderClient__init__ 65500 "blender".
Proof. reflexivity. Qed.

(** C1, as first stated, fails at [__doc__]: it is not among the enumerated
    names, and yet the server-command object path is selected, which is not
    the command object path. *)
Lemma execute_selects_server_for_doc :
("__doc__" ∉ example_ServerCommands)
  ∧ (UnrealClient_execute_payload example_interpreter_names
     example_ServerCommands example_unreal
       (PStr "__doc__") ∅).2
    = "/Engine/PythonTypes.Default__SkyHookServerCommands"
  ∧ (UnrealClient_execute_payload example_interpreter_names
     example_ServerCommands example_unreal
       (PStr "__doc__") ∅).2
    ≠ _UnrealClient__command_object_path example_unreal.
Proof.
  split; [|split].
  - refine (proj1 (bool_decide_eq_false _) _). reflexivity.
  - reflexivity.
  - discriminate.
Qed.

(** On CPython 3.11, [__getstate__] goes the same way. *)
Lemma execute_selects_server_for_getstate :
  (UnrealClient_execute_payload example_interpreter_names
     example_ServerCommands example_unreal (PStr "__getstate__") ∅).2
  = "/Engine/PythonTypes.Default__SkyHookServerCommands".
Proof. reflexivity. Qed.

(** C2, as first stated, fails at [__doc__]: it is not among the enumerated
    names, and after [set_command_object_path] both requests still go to the
    server-command object path. *)
Lemma execute_doc_after_set_command_object_path :
  ("__doc__" ∉ example_ServerCommands)
  ∧ sent (UnrealClient_execute scripted_transport example_compile example_run
            example_interpreter_names example_ServerCommands
            (UnrealClient_set_command_object_path example_unreal
               "/Engine/PythonTypes.Default__MyCommands")
            (PStr "__doc__") ∅ true false
            (mkMachine [Returns PNone; Returns example_reply_list] [] [])).2
    = [ mkRequest PUT "http://127.0.0.1:30010/remote/object/call"
          (PDict {[ "ObjectPath" :=
                      PStr "/Engine/PythonTypes.Default__SkyHookServerCommands";
                    "FunctionName" := PStr "__doc__";
                    "Parameters" := PDict ∅;
                    "GenerateTransaction" := PBool true ]})
          (Some {[ "Content-type" := "application/json";
                   "Accept" := "text/plain" ]});
        mkRequest PUT "http://127.0.0.1:30010/remote/object/call"
          (PDict {[ "ObjectPath" :=
                      PStr "/Engine/PythonTypes.Default__SkyHookServerCommands";
                    "FunctionName" := PStr "get_reply";
                    "Parameters" := PDict ∅;
                    "GenerateTransaction" := PBool true ]})
          (Some {[ "Content-type" := "application/json";
                   "Accept" := "text/plain" ]}) ].
Proof.
  split.
  - refine (proj1 (bool_decide_eq_false _) _). reflexivity.
  - reflexivity.
Qed.

(** The same run for a command of the user's own. *)
Lemma execute_after_set_command_object_path_example :
  sent (UnrealClient_execute scripted_transport example_compile example_run
          example_interpreter_names example_ServerCommands
          (UnrealClient_set_command_object_path example_unreal
             "/Engine/PythonTypes.Default__MyCommands")
          (PStr "spawn_cube") example_parameters true false
          (mkMachine [Returns PNone; Returns example_reply_list] [] [])).2
  = [ mkRequest PUT "http://127.0.0.1:30010/remote/object/call"
        (PDict {[ "ObjectPath" := PStr "/Engine/PythonTypes.Default__MyCommands";
                  "FunctionName" := PStr "spawn_cube";
                  "Parameters" := PDict {[ "size" := PInt 2 ]};
                  "GenerateTransaction" := PBool true ]})
        (Some {[ "Content-type" := "application/json";
                 "Accept" := "text/plain" ]});
      mkRequest PUT "http://127.0.0.1:30010/remote/object/call"
        (PDict {[ "ObjectPath" := PStr "/Engine/PythonTypes.Default__MyCommands";
                  "FunctionName" := PStr "get_reply";
                  "Parameters" := PDict ∅;
                  "GenerateTransaction" := PBool true ]})
        (Some {[ "Content-type" := "application/json";
                 "Accept" := "text/plain" ]}) ].
Proof.
  assert ("spawn_cube"
          ∉ py_dir example_interpreter_names example_ServerCommands) as Hname.
  { refine (proj1 (bool_decide_eq_false _) _). reflexivity. }
  apply (proj2 (execute_after_set_command_object_path _ scripted_transport _
                  example_compile example_run example_interpreter_names
                  example_ServerCommands example_unreal
                  "/Engine/PythonTypes.Default__MyCommands" "spawn_cube"
                  example_parameters true false
                  (mkMachine [Returns PNone; Returns example_reply_list] [] [])
                  Hname eq_refl)).
Defined.

(** C7, as first stated, fails on the indirection client: with the callable
    the payload holds the callable, not its name, the run ends in a
    [TypeError] and nothing is sent; with the name, the two requests go
    out. *)
Lemma unreal_execute_keeps_callable :
  ((UnrealClient_execute_payload example_interpreter_names
     example_ServerCommands example_unreal
      (PCallable (Some "spawn_cube")) ∅).1
   ≠ (UnrealClient_execute_payload example_interpreter_names
     example_ServerCommands example_unreal
        (PStr "spawn_cube") ∅).1)
  ∧ UnrealClient_execute scripted_transport example_compile example_run
      example_interpreter_names example_ServerCommands example_unreal
      (PCallable (Some "spawn_cube")) ∅ true false
      (mkMachine [Returns PNone; Returns example_reply_list] [] [])
    = (Raises TypeError,
       mkMachine [Returns PNone; Returns example_reply_list] [] [])
  ∧ length (sent (UnrealClient_execute scripted_transport example_compile example_run
                    example_interpreter_names example_ServerCommands example_unreal
                    (PStr "spawn_cube") ∅ true false
                    (mkMachine [Returns PNone; Returns example_reply_list]
                       [] [])).2)
    = 2.
Proof.
  split; [|split].
  - intros Heq. apply (f_equal (fun v => match v with
                                         | PDict d => d !! "FunctionName"
                                         | _ => None
                                         end)) in Heq.
    vm_compute in Heq. discriminate.
  - reflexivity.
  - reflexivity.
Qed.

(** C5: on a Blender client whose host answers [is_online] with a true
    [Success], [is_host_online] sends the POST, echoes the payload and the
    answer, and then raises [AttributeError] instead of returning [True]. *)
Theorem is_host_online_on_direct_client :
  Client_is_host_online (object := Client_object _ scripted_transport)
    example_blender (mkMachine [Returns example_online] [] [])
  = (Raises AttributeError,
     mkMachine []
       [ mkRequest POST "http://127.0.0.1:65500"
           (PDict {[ "FunctionName" := PStr "is_online";
                     "Parameters" := PDict ∅ ]})
           None ]
       [ PDict {[ "FunctionName" := PStr "is_online";
                  "Parameters" := PDict ∅ ]};
         example_online ]).
Proof. reflexivity. Qed.

(** On the Unreal client [is_host_online] does return, yet what it returns is
    [None] as soon as the reply was coerced, since [Success] is gone by
    then. *)
Lemma is_host_online_on_unreal_client :
  (Client_is_host_online
     (object := UnrealClient_object _ scripted_transport _ example_compile example_run
                  example_interpreter_names example_ServerCommands)
     example_unreal
     (mkMachine [Returns PNone; Returns example_reply_list] [] [])).1
  = Returns PNone.
Proof. reflexivity. Qed.

(** A run of the direct client's [execute]: the answer is echoed, and [None]
    is what comes back. *)
Lemma Client_execute_example :
  Client_execute scripted_transport example_blender
    (PCallable (Some "spawn_cube")) example_parameters
    (mkMachine [Returns example_online] [] [])
  = (Returns PNone,
     mkMachine []
       [ mkRequest POST "http://127.0.0.1:65500"
           (PDict {[ "FunctionName" := PStr "spawn_cube";
                     "Parameters" := PDict example_parameters ]})
           None ]
       [ PDict {[ "FunctionName" := PStr "spawn_cube";
                  "Parameters" := PDict example_parameters ]};
         example_online ]).
Proof.
  apply (proj2 (Client_execute_returns_nothing _ scripted_transport
                  example_blender (PCallable (Some "spawn_cube"))
                  example_parameters
                  (mkMachine [Returns example_online] [] []))
           (PStr "spawn_cube") example_online [] eq_refl eq_refl eq_refl).
Defined.

(** C3, as first stated, fails at a text that is no literal and empties
    the response before it raises: the text compiles, its run raises, and
    the result has nothing under [ReturnValue], where the answer had the
    text. *)
Lemma get_response_loses_return_value :
  example_reply_clear
  = PDict {[ "ReturnValue" := PStr "response.clear() or undefined_name";
             "Success" := PBool true ]}
  ∧ example_compile "response.clear() or undefined_name" = Some ClearThenRaise
  ∧ ev_outcome
      (example_run ClearThenRaise
         (get_response_frame example_unreal
            "/Engine/PythonTypes.Default__SkyHookCommands"
            example_reply_clear)
         ([] : list (outcome pyval)))
    = Raises NameError
  ∧ UnrealClient__get_response scripted_transport example_compile example_run
      example_unreal "/Engine/PythonTypes.Default__SkyHookCommands"
      (mkMachine [Returns example_reply_clear] [] [])
    = (Returns (PDict ∅),
       mkMachine []
         [ get_reply_request example_unreal
             "/Engine/PythonTypes.Default__SkyHookCommands" ] [])
  ∧ (∅ : gmap string pyval) !! "ReturnValue" = None.
Proof. repeat split. Qed.

(** The two answers of the specification: the text of a list is replaced by
    the list, the text that is no literal stays as it is. *)
Lemma get_response_coerces_example :
  UnrealClient__get_response scripted_transport example_compile example_run
    example_unreal "/Engine/PythonTypes.Default__SkyHookCommands"
    (mkMachine [Returns example_reply_list] [] [])
  = (Returns (PDict {[ "ReturnValue" := PList [PInt 1; PInt 2; PInt 3] ]}),
     mkMachine []
       [ get_reply_request example_unreal
           "/Engine/PythonTypes.Default__SkyHookCommands" ] [])
  ∧ UnrealClient__get_response scripted_transport example_compile example_run
      example_unreal "/Engine/PythonTypes.Default__SkyHookCommands"
      (mkMachine [Returns example_reply_text] [] [])
    = (Returns example_reply_text,
       mkMachine []
         [ get_reply_request example_unreal
             "/Engine/PythonTypes.Default__SkyHookCommands" ] []).
Proof.
  split.
  - destruct (get_response_coerces _ scripted_transport _ example_compile
                example_run example_unreal
                "/Engine/PythonTypes.Default__SkyHookCommands"
                (mkMachine [Returns example_reply_list] [] [])
                example_reply_list [] eq_refl) as (Hlist & _).
    exact (Hlist _ "[1, 2, 3]" (Literal (PList [PInt 1; PInt 2; PInt 3])) _
             eq_refl eq_refl eq_refl eq_refl).
  - destruct (get_response_coerces _ scripted_transport _ example_compile
                example_run example_unreal
                "/Engine/PythonTypes.Default__SkyHookCommands"
                (mkMachine [Returns example_reply_text] [] [])
                example_reply_text [] eq_refl) as (_ & Htext & _).
    exact (proj1 (Htext _ "not a literal!" eq_refl eq_refl eq_refl)).
Defined.

(** After the coercion of the list, [Success] and [Time] are gone; and a
    text that empties the response before it raises leaves an empty
    response. *)
Lemma get_response_keeps_only_return_value_example :
  (∃ d' : gmap string pyval,
      (UnrealClient__get_response scripted_transport example_compile
         example_run example_unreal
         "/Engine/PythonTypes.Default__SkyHookCommands"
         (mkMachine [Returns example_reply_list] [] [])).1
      = Returns (PDict d')
      ∧ d' !! "ReturnValue" = Some (PList [PInt 1; PInt 2; PInt 3])
      ∧ dom d' = {[ "ReturnValue" ]}
      ∧ ∀ k, k ≠ "ReturnValue" → d' !! k = None)
  ∧ (UnrealClient__get_response scripted_transport example_compile
       example_run example_unreal
       "/Engine/PythonTypes.Default__SkyHookCommands"
       (mkMachine [Returns example_reply_clear] [] [])).1
    = Returns (PDict ∅).
Proof.
  split.
  - destruct (get_response_keeps_only_return_value _ scripted_transport _
                example_compile example_run example_unreal
                "/Engine/PythonTypes.Default__SkyHookCommands"
                (mkMachine [Returns example_reply_list] [] [])
                example_reply_list [] eq_refl) as (Hlist & _).
    exact (Hlist _ "[1, 2, 3]" (Literal (PList [PInt 1; PInt 2; PInt 3])) _
             eq_refl eq_refl eq_refl eq_refl).
  - destruct (get_response_keeps_only_return_value _ scripted_transport _
                example_compile example_run example_unreal
                "/Engine/PythonTypes.Default__SkyHookCommands"
                (mkMachine [Returns example_reply_clear] [] [])
                example_reply_clear [] eq_refl) as (_ & _ & _ & Hraise & _).
    exact (Hraise _ "response.clear() or undefined_name" ClearThenRaise
             NameError eq_refl eq_refl eq_refl eq_refl).
Defined.

(** The wire format, on a client whose command object path was set. *)
Lemma execute_wire_format_example :
  ∃ new : list request,
    sent (UnrealClient_execute scripted_transport example_compile example_run
            example_interpreter_names example_ServerCommands
            (UnrealClient_set_command_object_path example_unreal
               "/Engine/PythonTypes.Default__MyCommands")
            (PStr "spawn_cube") example_parameters true false
            (mkMachine [Returns PNone; Returns example_reply_list] [] [])).2
    = [] ++ new
    ∧ Forall (indirection_call
                (UnrealClient_set_command_object_path example_unreal
                   "/Engine/PythonTypes.Default__MyCommands")) new
    ∧ (new = [] ↔ json_serializable (PStr "spawn_cube")
                   && json_serializable (PDict example_parameters) = false).
Proof.
  apply (execute_wire_format _ scripted_transport _ example_compile example_run
           example_interpreter_names example_ServerCommands 30010 "unreal").
  apply reach_set_command_object_path. exact (reach_init 30010 "unreal").
Defined.

(** ** Closed examples for the further properties *)

(** With the payload echo off and the execution echo on, only the answer is
    printed. *)
Lemma Client_execute_echo_example :
  stdout (Client_execute scripted_transport
            (Client_set_echo_execution
               (Client_set_echo_payload example_blender false) true)
            (PCallable (Some "spawn_cube")) example_parameters
            (mkMachine [Returns example_online] [] [])).2
  = [example_online].
Proof.
  exact (proj2 (proj2 (proj2
           (Client_execute_echo _ scripted_transport example_blender
              false true (PCallable (Some "spawn_cube")) (PStr "spawn_cube")
              example_online example_parameters
              (mkMachine [Returns example_online] [] []) []
              eq_refl eq_refl eq_refl)))).
Defined.


(** A callable among the parameters: [TypeError] from a host that takes the
    URL, [InvalidURL] from one that refuses it. *)
Lemma Client_execute_rejects_example :
  Client_execute scripted_transport example_blender (PStr "spawn_cube")
    example_bad_parameters (mkMachine [Returns example_online] [] [])
  = (Raises TypeError, mkMachine [Returns example_online] [] [])
  ∧ Client_execute refusing_transport example_blender (PStr "spawn_cube")
      example_bad_parameters (mkMachine tt [] [])
    = (Raises InvalidURL, mkMachine tt [] []).
Proof.
  split.
  - destruct (Client_execute_rejects _ scripted_transport example_blender
                (PStr "spawn_cube") example_bad_parameters
                (mkMachine [Returns example_online] [] [])
                (or_intror eq_refl)) as (e & Hrun & _ & He).
    rewrite Hrun. exact (f_equal (fun x => (Raises x, _)) (He _ eq_refl)).
  - destruct (Client_execute_rejects _ refusing_transport example_blender
                (PStr "spawn_cube") example_bad_parameters
                (mkMachine tt [] [])
                (or_intror eq_refl)) as (e & Hrun & _ & He).
    rewrite Hrun. exact (f_equal (fun x => (Raises x, _)) (He _ eq_refl)).
Defined.

(** A host that answers [is_online] with a false [Success]: the exception is
    the same. *)
Lemma Client_is_host_online_attribute_error_example :
  Client_is_host_online (object := Client_object _ scripted_transport)
    (Client_set_echo_payload example_blender false)
    (mkMachine [Returns example_offline] [] [])
  = (Raises AttributeError,
     mkMachine []
       [ mkRequest POST "http://127.0.0.1:65500"
           (PDict {[ "FunctionName" := PStr "is_online";
                     "Parameters" := PDict ∅ ]})
           None ]
       [ example_offline ]).
Proof.
  exact (Client_is_host_online_attribute_error _ scripted_transport
           (Client_set_echo_payload example_blender false)
           (mkMachine [Returns example_offline] [] []) example_offline []
           eq_refl).
Defined.

(** The four constructors, for the ports 65501, 65502 and 65503 of the host
    programs. *)
Lemma host_clients_execute_example :
  Forall
    (fun '(client, p) =>
       Client_execute scripted_transport client (PStr "spawn_cube")
         example_parameters (mkMachine [Returns example_online] [] [])
       = (Returns PNone,
          mkMachine []
            [ mkRequest POST ("http://127.0.0.1:" +:+ py_str p)
                (PDict {[ "FunctionName" := PStr "spawn_cube";
                          "Parameters" := PDict example_parameters ]})
                None ]
            [ PDict {[ "FunctionName" := PStr "spawn_cube";
                       "Parameters" := PDict example_parameters ]};
              example_online ]))
    [ (Client__init__, 65500%Z);
      (BlenderClient__init__ 65501 "blender", 65501%Z);
      (MayaClient__init__ 65502 "maya", 65502%Z);
      (HoudiniClient__init__ 65503 "houdini", 65503%Z) ].
Proof.
  apply (host_clients_execute _ scripted_transport 65501 65502 65503
           "blender" "maya" "houdini" "spawn_cube" example_parameters
           (mkMachine [Returns example_online] [] []) example_online []).
  - reflexivity.
  - intros r _. reflexivity.
Defined.



(** A host that refuses the invocation: one request, no fetch. *)
Lemma UnrealClient_execute_invocation_failure_example :
  UnrealClient_execute scripted_transport example_compile example_run
    example_interpreter_names example_ServerCommands example_unreal (PStr "spawn_cube")
    example_parameters true false (mkMachine [] [] [])
  = (Raises RequestException,
     mkMachine []
       [ mkRequest PUT "http://127.0.0.1:30010/remote/object/call"
           (PDict {[ "ObjectPath" :=
                       PStr "/Engine/PythonTypes.Default__SkyHookCommands";
                     "FunctionName" := PStr "spawn_cube";
                     "Parameters" := PDict example_parameters;
                     "GenerateTransaction" := PBool true ]})
           (Some {[ "Content-type" := "application/json";
                    "Accept" := "text/plain" ]}) ]
       []).
Proof.
  exact (UnrealClient_execute_invocation_failure _ scripted_transport _
           example_compile example_run example_interpreter_names
           example_ServerCommands example_unreal
           (PStr "spawn_cube") example_parameters true false
           (mkMachine [] [] []) RequestException [] eq_refl eq_refl).
Defined.

(** A callable among the parameters of the indirection client: [TypeError]
    from a host that takes the URL, [InvalidURL] from one that refuses
    it. *)
Lemma UnrealClient_execute_rejects_example :
  UnrealClient_execute scripted_transport example_compile example_run
    example_interpreter_names example_ServerCommands example_unreal
    (PStr "spawn_cube") example_bad_parameters true false
    (mkMachine [Returns PNone; Returns example_reply_list] [] [])
  = (Raises TypeError,
     mkMachine [Returns PNone; Returns example_reply_list] [] [])
  ∧ UnrealClient_execute refusing_transport example_compile example_run
      example_interpreter_names example_ServerCommands example_unreal
      (PStr "spawn_cube") example_bad_parameters true false
      (mkMachine tt [] [])
    = (Raises InvalidURL, mkMachine tt [] []).
Proof.
  split.
  - exact (UnrealClient_execute_rejects _ scripted_transport _
             example_compile example_run example_interpreter_names
             example_ServerCommands example_unreal (PStr "spawn_cube")
             example_bad_parameters true false
             (mkMachine [Returns PNone; Returns example_reply_list] [] [])
             eq_refl).
  - exact (UnrealClient_execute_rejects _ refusing_transport _
             example_compile example_run example_interpreter_names
             example_ServerCommands example_unreal (PStr "spawn_cube")
             example_bad_parameters true false (mkMachine tt [] [])
             eq_refl).
Defined.


(** A server command after the command object path was set: still the
    server commands' object. *)
Lemma set_command_object_path_keeps_server_commands_example :
  (UnrealClient_execute_payload example_interpreter_names
     example_ServerCommands
     (UnrealClient_set_command_object_path example_unreal
        "/Engine/PythonTypes.Default__MyCommands")
     (PStr "SKY_LS") example_parameters).2
  = "/Engine/PythonTypes.Default__SkyHookServerCommands".
Proof.
  assert ("SKY_LS" ∈ py_dir example_interpreter_names example_ServerCommands)
    as Hname.
  { refine (proj1 (bool_decide_eq_true _) _). reflexivity. }
  exact (proj1 (set_command_object_path_keeps_server_commands _
                  scripted_transport _ example_compile example_run
                  example_interpreter_names example_ServerCommands
                  example_unreal "/Engine/PythonTypes.Default__MyCommands"
                  "SKY_LS" example_parameters true false
                  (mkMachine [] [] []) Hname)).
Defined.

(** A client after four changes. *)
Lemma UnrealClient_reachable_invariant_example :
  let self :=
    on_super (fun c => Client_set_echo_payload c false)
      (on_super (fun c => mkClient (host_address c) (port c)
                            (_Client__echo_execution c)
                            (_Client__echo_payload c) (Some "editor"))
         (on_super (fun c => mkClient (host_address c) 8080
                               (_Client__echo_execution c)
                               (_Client__echo_payload c) (host_program c))
            (UnrealClient_set_command_object_path example_unreal
               "/Engine/PythonTypes.Default__MyCommands"))) in
  _UnrealClient__server_command_object_path self
  = "/Engine/PythonTypes.Default__SkyHookServerCommands"
  ∧ _UnrealClient__headers self
    = {[ "Content-type" := "application/json"; "Accept" := "text/plain" ]}.
Proof.
  apply (UnrealClient_reachable_invariant 30010 "unreal").
  apply reach_set_echo_payload, reach_assign_host_program, reach_assign_port,
    reach_set_command_object_path.
  exact (reach_init 30010 "unreal").
Defined.

